(** * BrewKits documentation site: site configuration, page components and
    the generated route table.

    The development follows the repository file by file:
    - [docusaurus.config.ts] (and the earlier revision of it kept with the
      sources): the site configuration object, built once from literals and
      from the host clock ([new Date().getFullYear()]);
    - [src/components/HomepageFeatures], [src/components/BuyMeACoffee] and
      [src/pages/index.tsx]: function components, embedded as computations
      in a small render monad that threads the ambient render context and
      whatever mutable store the host page holds;
    - [.docusaurus/routes.js]: the generated route table, a tree of route
      entries.

    Markup is a first-order tree ([Node]); components of the framework
    ([Heading], [Link], [Layout]) and SVG assets stay opaque element types,
    components of this repository are expanded when rendered. *)

From Stdlib Require Import String List ZArith Lia Bool.
From Stdlib Require Import DecimalString DecimalZ DecimalPos.
Import ListNotations.
Open Scope list_scope.
Open Scope string_scope.

(* ================================================================== *)
(** * The host clock, as [Date] exposes it *)
(* ================================================================== *)

Module Date.

Local Open Scope Z_scope.

(** The host a configuration is evaluated on: the time value of
    [new Date()] (milliseconds since the epoch, UTC) and the local time
    zone adjustment in milliseconds. *)
Record t : Type := mk { timeValue : Z; LocalTZA : Z }.

Definition msPerDay : Z := 86400000.

(** ECMAScript [Day(t)], [DayFromYear(y)] and [TimeFromYear(y)]. *)
Definition Day (tv : Z) : Z := tv / msPerDay.

Definition DayFromYear (y : Z) : Z :=
  365 * (y - 1970) + (y - 1969) / 4 - (y - 1901) / 100 + (y - 1601) / 400.

Definition TimeFromYear (y : Z) : Z := msPerDay * DayFromYear y.

(** ECMAScript [YearFromTime(t)]: the largest [y] with
    [TimeFromYear y <= t].  Computed from the mean Gregorian year
    (146097 days per 400 years) and corrected by at most one year. *)
Definition YearFromTime (tv : Z) : Z :=
  let d := Day tv in
  let y := 1970 + (400 * d) / 146097 in
  if d <? DayFromYear y then y - 1
  else if DayFromYear (y + 1) <=? d then y + 1
  else y.

Definition LocalTime (d : t) : Z := timeValue d + LocalTZA d.

(** [Date.prototype.getFullYear]. *)
Definition getFullYear (d : t) : Z := YearFromTime (LocalTime d).

End Date.

(** [ToString] of an integral Number, as a template literal applies it. *)
Definition ToString (n : Z) : string := NilZero.string_of_int (Z.to_int n).

(* ================================================================== *)
(** * Site configuration ([docusaurus.config.ts]) *)
(* ================================================================== *)

(** The object literal is nested; each level is a record in a module of
    its own so that fields keep their source names.  A field that only one
    of the two revisions of the file sets is an [option] ([None] where the
    literal leaves it out). *)

Module Logo.
Record t : Type := mk { alt : string; src : string }.
End Logo.

Module NavbarItem.
Record t : Type := mk {
  type : option string;
  sidebarId : option string;
  to : option string;
  href : option string;
  label : string;
  position : string
}.
End NavbarItem.

Module Navbar.
Record t : Type := mk {
  title : string;
  logo : Logo.t;
  items : list NavbarItem.t
}.
End Navbar.

Module FooterItem.
Record t : Type := mk {
  label : string;
  to : option string;
  href : option string
}.
End FooterItem.

Module FooterColumn.
Record t : Type := mk { title : string; items : list FooterItem.t }.
End FooterColumn.

Module Footer.
Record t : Type := mk {
  style : string;
  links : option (list FooterColumn.t);
  copyright : string
}.
End Footer.

(** The two themes the configuration takes from [prism-react-renderer]. *)
Module prismThemes.
Inductive t : Type := github | dracula.
End prismThemes.

Module Prism.
Record t : Type := mk {
  theme : prismThemes.t;
  darkTheme : prismThemes.t;
  additionalLanguages : list string
}.
End Prism.

Module ColorMode.
Record t : Type := mk {
  defaultMode : string;
  disableSwitch : bool;
  respectPrefersColorScheme : bool
}.
End ColorMode.

Module ThemeConfig.
Record t : Type := mk {
  image : option string;
  navbar : Navbar.t;
  footer : Footer.t;
  prism : option Prism.t;
  colorMode : ColorMode.t
}.
End ThemeConfig.

Module I18n.
Record t : Type := mk { defaultLocale : string; locales : list string }.
End I18n.

(** [['classic', {docs: {sidebarPath}, blog: {showReadingTime}, theme:
    {customCss}}]]: a preset is its name with its options. *)
Module PresetOptions.
Record t : Type := mk {
  docs_sidebarPath : string;
  blog_showReadingTime : bool;
  theme_customCss : string
}.
End PresetOptions.

Record Config : Type := mkConfig {
  title : string;
  tagline : string;
  favicon : string;
  url : string;
  baseUrl : string;
  organizationName : string;
  projectName : string;
  deploymentBranch : string;
  trailingSlash : bool;
  onBrokenLinks : option string;
  onBrokenMarkdownLinks : option string;
  i18n : option I18n.t;
  presets : option (list (string * PresetOptions.t));
  themeConfig : ThemeConfig.t
}.

(** [docusaurus.config.ts].  The module body runs once when the file is
    loaded; the only thing it reads besides its literals is the clock, in
    the footer's template literal. *)
Definition config (now : Date.t) : Config :=
  {| title := "BrewKits";
     tagline := "Publishing Excellence for Flutter & Kotlin Multiplatform Libraries";
     favicon := "img/icon.png";
     url := "https://brewkits.dev";
     baseUrl := "/";
     organizationName := "brewkits";
     projectName := "brewkits.github.io";
     deploymentBranch := "gh-pages";
     trailingSlash := false;
     onBrokenLinks := Some "throw";
     onBrokenMarkdownLinks := Some "warn";
     i18n := Some {| I18n.defaultLocale := "en"; I18n.locales := ["en"] |};
     presets := Some
       [ ("classic",
          {| PresetOptions.docs_sidebarPath := "./sidebars.ts";
             PresetOptions.blog_showReadingTime := true;
             PresetOptions.theme_customCss := "./src/css/custom.css" |}) ];
     themeConfig :=
       {| ThemeConfig.image := Some "img/banner.png";
          ThemeConfig.navbar :=
            {| Navbar.title := "BrewKits";
               Navbar.logo :=
                 {| Logo.alt := "BrewKits Logo"; Logo.src := "img/logo.png" |};
               Navbar.items :=
                 [ {| NavbarItem.type := Some "docSidebar";
                      NavbarItem.sidebarId := Some "tutorialSidebar";
                      NavbarItem.to := None;
                      NavbarItem.href := None;
                      NavbarItem.label := "Docs";
                      NavbarItem.position := "left" |};
                   {| NavbarItem.type := None;
                      NavbarItem.sidebarId := None;
                      NavbarItem.to := Some "/blog";
                      NavbarItem.href := None;
                      NavbarItem.label := "Blog";
                      NavbarItem.position := "left" |};
                   {| NavbarItem.type := None;
                      NavbarItem.sidebarId := None;
                      NavbarItem.to := None;
                      NavbarItem.href := Some "https://github.com/brewkits";
                      NavbarItem.label := "GitHub";
                      NavbarItem.position := "right" |} ] |};
          ThemeConfig.footer :=
            {| Footer.style := "dark";
               Footer.links := Some
                 [ {| FooterColumn.title := "Docs";
                      FooterColumn.items :=
                        [ {| FooterItem.label := "Introduction";
                             FooterItem.to := Some "/docs/intro";
                             FooterItem.href := None |} ] |};
                   {| FooterColumn.title := "Community";
                      FooterColumn.items :=
                        [ {| FooterItem.label := "GitHub";
                             FooterItem.to := None;
                             FooterItem.href := Some "https://github.com/brewkits" |} ] |} ];
               Footer.copyright :=
                 "Copyright © " ++ ToString (Date.getFullYear now)
                   ++ " BrewKits. Built with Docusaurus." |};
          ThemeConfig.prism := Some
            {| Prism.theme := prismThemes.github;
               Prism.darkTheme := prismThemes.dracula;
               Prism.additionalLanguages := ["dart"; "yaml"] |};
          ThemeConfig.colorMode :=
            {| ColorMode.defaultMode := "dark";
               ColorMode.disableSwitch := false;
               ColorMode.respectPrefersColorScheme := true |} |} |}.

(** The earlier revision of the configuration kept with the sources
    ([unnamed/part_002]): other tagline, favicon and logo, no presets, no
    footer links, and the same clock-dependent copyright line. *)
Definition config_part_002 (now : Date.t) : Config :=
  {| title := "BrewKits";
     tagline := "The Traffic Control System for your App Architecture";
     favicon := "img/favicon.ico";
     url := "https://brewkits.dev";
     baseUrl := "/";
     organizationName := "brewkits";
     projectName := "brewkits.github.io";
     deploymentBranch := "gh-pages";
     trailingSlash := false;
     onBrokenLinks := None;
     onBrokenMarkdownLinks := None;
     i18n := None;
     presets := None;
     themeConfig :=
       {| ThemeConfig.image := None;
          ThemeConfig.navbar :=
            {| Navbar.title := "BrewKits";
               Navbar.logo :=
                 {| Logo.alt := "BrewKits Logo"; Logo.src := "img/logo.svg" |};
               Navbar.items :=
                 [ {| NavbarItem.type := None;
                      NavbarItem.sidebarId := None;
                      NavbarItem.to := Some "/docs/intro";
                      NavbarItem.href := None;
                      NavbarItem.label := "Docs";
                      NavbarItem.position := "left" |};
                   {| NavbarItem.type := None;
                      NavbarItem.sidebarId := None;
                      NavbarItem.to := Some "/blog";
                      NavbarItem.href := None;
                      NavbarItem.label := "Blog";
                      NavbarItem.position := "left" |};
                   {| NavbarItem.type := None;
                      NavbarItem.sidebarId := None;
                      NavbarItem.to := None;
                      NavbarItem.href := Some "https://github.com/brewkits";
                      NavbarItem.label := "GitHub";
                      NavbarItem.position := "right" |} ] |};
          ThemeConfig.footer :=
            {| Footer.style := "dark";
               Footer.links := None;
               Footer.copyright :=
                 "Copyright © " ++ ToString (Date.getFullYear now)
                   ++ " BrewKits. Built with Docusaurus." |};
          ThemeConfig.prism := None;
          ThemeConfig.colorMode :=
            {| ColorMode.defaultMode := "dark";
               ColorMode.disableSwitch := false;
               ColorMode.respectPrefersColorScheme := true |} |} |}.

(** The configuration with the one clock-dependent field overwritten: what
    is left is what the literals alone determine. *)
Definition with_copyright (c : Config) (line : string) : Config :=
  let tc := themeConfig c in
  let f := ThemeConfig.footer tc in
  {| title := title c;
     tagline := tagline c;
     favicon := favicon c;
     url := url c;
     baseUrl := baseUrl c;
     organizationName := organizationName c;
     projectName := projectName c;
     deploymentBranch := deploymentBranch c;
     trailingSlash := trailingSlash c;
     onBrokenLinks := onBrokenLinks c;
     onBrokenMarkdownLinks := onBrokenMarkdownLinks c;
     i18n := i18n c;
     presets := presets c;
     themeConfig :=
       {| ThemeConfig.image := ThemeConfig.image tc;
          ThemeConfig.navbar := ThemeConfig.navbar tc;
          ThemeConfig.footer :=
            {| Footer.style := Footer.style f;
               Footer.links := Footer.links f;
               Footer.copyright := line |};
          ThemeConfig.prism := ThemeConfig.prism tc;
          ThemeConfig.colorMode := ThemeConfig.colorMode tc |} |}.

Definition copyright_of (c : Config) : string :=
  Footer.copyright (ThemeConfig.footer (themeConfig c)).

(* ================================================================== *)
(** * Markup *)
(* ================================================================== *)

(** What a JSX tag can name in this repository: a host element (['div'],
    ['a'], ...), a component imported from the framework ([Heading],
    [Link], [Layout]), the default export of an SVG asset, or a fragment
    ([<>...</>]). *)
Inductive ElementType : Type :=
| Host (tag : string)
| Imported (name : string)
| SvgAsset (module_path : string)
| Fragment.

(** A prop is a string or, for [style], an object of CSS declarations. *)
Inductive PropValue : Type :=
| PStr (s : string)
| PObj (fields : list (string * string)).

#[warnings="-register-all"]
Inductive Node : Type :=
| Text (s : string)
| Element (type : ElementType) (props : list (string * PropValue))
          (children : list Node).

Definition ElementType_eqb (a b : ElementType) : bool :=
  match a, b with
  | Host x, Host y => String.eqb x y
  | Imported x, Imported y => String.eqb x y
  | SvgAsset x, SvgAsset y => String.eqb x y
  | Fragment, Fragment => true
  | _, _ => false
  end.

(** [clsx(...args)] on string arguments: the truthy (non-empty) ones,
    joined by a single space. *)
Fixpoint clsx (args : list string) : string :=
  match args with
  | [] => ""
  | x :: rest =>
      let r := clsx rest in
      if String.eqb x "" then r
      else if String.eqb r "" then x
      else x ++ " " ++ r
  end.

(** A CSS module ([import styles from './x.module.css']): class keys to
    generated class names. *)
Definition CssModule : Type := string -> string.

(** ** Reading a tree *)

Fixpoint lookup (k : string) (ps : list (string * PropValue))
  : option PropValue :=
  match ps with
  | [] => None
  | (k', v) :: rest => if String.eqb k k' then Some v else lookup k rest
  end.

Definition prop (k : string) (n : Node) : option PropValue :=
  match n with
  | Text _ => None
  | Element _ ps _ => lookup k ps
  end.

Definition has_type (ty : ElementType) (n : Node) : bool :=
  match n with
  | Text _ => false
  | Element ty' _ _ => ElementType_eqb ty ty'
  end.

(** The node and everything below it, in document order. *)
Fixpoint descendants (n : Node) : list Node :=
  n :: match n with
       | Text _ => []
       | Element _ _ cs => flat_map descendants cs
       end.

Definition elements (ty : ElementType) (n : Node) : list Node :=
  filter (has_type ty) (descendants n).

(** The [<a>] elements of a tree and the [<Link>]s of a tree. *)
Definition anchors (n : Node) : list Node := elements (Host "a") n.
Definition links (n : Node) : list Node := elements (Imported "Link") n.

(** The text of a tree, as [textContent] concatenates it. *)
Fixpoint textContent (n : Node) : string :=
  match n with
  | Text s => s
  | Element _ _ cs => String.concat "" (map textContent cs)
  end.

(** The text leaves of a tree, in document order. *)
Fixpoint texts (n : Node) : list string :=
  match n with
  | Text s => [s]
  | Element _ _ cs => flat_map texts cs
  end.

(* ================================================================== *)
(** * Rendering *)
(* ================================================================== *)

(** What [useDocusaurusContext()] hands to a component.  The components
    of this repository destructure [siteConfig] and nothing else. *)
Record DocusaurusContext : Type := mkContext { siteConfig : Config }.

(** A function component runs against the ambient context and whatever
    mutable state the page holds (module variables, hook cells, globals);
    it returns markup and the state it leaves behind. *)
Definition Render (Store A : Type) : Type :=
  DocusaurusContext -> Store -> A * Store.

Definition ret {Store A} (a : A) : Render Store A :=
  fun _ st => (a, st).

Definition bind {Store A B} (m : Render Store A) (k : A -> Render Store B)
  : Render Store B :=
  fun ctx st => let (a, st') := m ctx st in k a ctx st'.

Notation "x <- m ;; k" := (bind m (fun x => k))
  (at level 61, m at next level, right associativity).

Definition useDocusaurusContext {Store} : Render Store DocusaurusContext :=
  fun ctx st => (ctx, st).

(** [xs.map((x, idx) => <C key={idx} {...x} />)]: the component is run on
    each element in order.  [key] is consumed by the reconciler and is not
    passed on, so the index leaves no trace in the markup. *)
Fixpoint mapM {Store A B} (f : A -> nat -> Render Store B) (idx : nat)
  (xs : list A) : Render Store (list B) :=
  match xs with
  | [] => ret []
  | x :: rest =>
      y <- f x idx ;;
      ys <- mapM f (S idx) rest ;;
      ret (y :: ys)
  end.

(** The markup of a render and the store it leaves. *)
Definition markup {Store A} (m : Render Store A) (ctx : DocusaurusContext)
  (st : Store) : A := fst (m ctx st).

Definition store_after {Store A} (m : Render Store A)
  (ctx : DocusaurusContext) (st : Store) : Store := snd (m ctx st).

(** Rendering the same component twice in a row, the second render
    starting from the store the first one left. *)
Definition twice {Store A} (m : Render Store A) : Render Store (A * A) :=
  a <- m ;;
  b <- m ;;
  ret (a, b).

(** A render that neither reads nor writes the store. *)
Definition stateless {Store A} (m : Render Store A) : Prop :=
  forall ctx st st',
    store_after m ctx st = st /\ markup m ctx st = markup m ctx st'.

(* ================================================================== *)
(** * Components *)
(* ================================================================== *)

(** [FeatureItem] of [src/components/HomepageFeatures/index.tsx]. *)
Module FeatureItem.
Record t : Type := mk {
  title : string;
  Svg : ElementType;
  description : Node
}.
End FeatureItem.

Definition FeatureList : list FeatureItem.t :=
  [ {| FeatureItem.title := "Flutter Libraries";
       FeatureItem.Svg := SvgAsset "@site/static/img/undraw_docusaurus_mountain.svg";
       FeatureItem.description :=
         Element Fragment []
           [ Text "Publishing high-quality Flutter packages to pub.dev with best practices, comprehensive documentation, and reliable maintenance." ] |};
    {| FeatureItem.title := "Kotlin Multiplatform";
       FeatureItem.Svg := SvgAsset "@site/static/img/undraw_docusaurus_tree.svg";
       FeatureItem.description :=
         Element Fragment []
           [ Text "Crafting KMP libraries for klibs.io with cross-platform excellence, supporting Android, iOS, and beyond." ] |};
    {| FeatureItem.title := "Open Source Excellence";
       FeatureItem.Svg := SvgAsset "@site/static/img/undraw_docusaurus_react.svg";
       FeatureItem.description :=
         Element Fragment []
           [ Text "Committed to building trusted, well-documented libraries that developers can rely on. Join us in creating better mobile experiences." ] |} ].

Section Components.

(** The state of the page a render runs against. *)
Variable Store : Type.

(** The three CSS modules the component files import as [styles]:
    [HomepageFeatures/styles.module.css], [BuyMeACoffee/styles.module.css]
    and [pages/index.module.css]. *)
Variable HomepageFeatures_styles : CssModule.
Variable BuyMeACoffee_styles : CssModule.
Variable index_styles : CssModule.

(** ** [src/components/HomepageFeatures/index.tsx] *)

Definition Feature (props : FeatureItem.t) : Render Store Node :=
  let styles := HomepageFeatures_styles in
  let title := FeatureItem.title props in
  let Svg := FeatureItem.Svg props in
  let description := FeatureItem.description props in
  ret
    (Element (Host "div") [("className", PStr (clsx ["col col--4"]))]
       [ Element (Host "div") [("className", PStr "text--center")]
           [ Element Svg
               [("className", PStr (styles "featureSvg")); ("role", PStr "img")]
               [] ];
         Element (Host "div")
           [("className", PStr "text--center padding-horiz--md")]
           [ Element (Imported "Heading") [("as", PStr "h3")] [Text title];
             Element (Host "p") [] [description] ] ]).

Definition HomepageFeatures : Render Store Node :=
  let styles := HomepageFeatures_styles in
  columns <- mapM (fun props idx => Feature props) 0 FeatureList ;;
  ret
    (Element (Host "section") [("className", PStr (styles "features"))]
       [ Element (Host "div") [("className", PStr "container")]
           [ Element (Host "div") [("className", PStr "row")] columns ] ]).

(** ** [src/components/BuyMeACoffee/index.tsx] *)

Definition BuyMeACoffee : Render Store Node :=
  let styles := BuyMeACoffee_styles in
  ret
    (Element (Host "div") [("className", PStr (styles "coffeeContainer"))]
       [ Element (Host "a")
           [ ("href", PStr "https://www.buymeacoffee.com/brewkits");
             ("target", PStr "_blank");
             ("rel", PStr "noopener noreferrer");
             ("className", PStr (styles "coffeeButton")) ]
           [ Element (Host "span")
               [("className", PStr (styles "coffeeIcon"))] [Text "☕"];
             Element (Host "span")
               [("className", PStr (styles "coffeeText"))]
               [Text "Buy Me a Coffee"] ] ]).

(** The revision of the same component kept in [unnamed/part_000]: a
    second button, to Patreon. *)
Definition BuyMeACoffee_part_000 : Render Store Node :=
  let styles := BuyMeACoffee_styles in
  ret
    (Element (Host "div") [("className", PStr (styles "supportContainer"))]
       [ Element (Host "a")
           [ ("href", PStr "https://www.buymeacoffee.com/brewkits");
             ("target", PStr "_blank");
             ("rel", PStr "noopener noreferrer");
             ("className", PStr (styles "coffeeButton")) ]
           [ Element (Host "span")
               [("className", PStr (styles "coffeeIcon"))] [Text "☕"];
             Element (Host "span")
               [("className", PStr (styles "buttonText"))]
               [Text "Buy Me a Coffee"] ];
         Element (Host "a")
           [ ("href", PStr "https://www.patreon.com/brewkits");
             ("target", PStr "_blank");
             ("rel", PStr "noopener noreferrer");
             ("className", PStr (styles "patreonButton")) ]
           [ Element (Host "span")
               [("className", PStr (styles "patreonIcon"))] [Text "🎨"];
             Element (Host "span")
               [("className", PStr (styles "buttonText"))]
               [Text "Support on Patreon"] ] ]).

(** ** [src/pages/index.tsx] *)

Definition HomepageHeader : Render Store Node :=
  let styles := index_styles in
  ctx <- useDocusaurusContext ;;
  let siteConfig := siteConfig ctx in
  ret
    (Element (Host "header")
       [("className", PStr (clsx ["hero hero--primary"; styles "heroBanner"]))]
       [ Element (Host "div") [("className", PStr "container")]
           [ Element (Imported "Heading")
               [("as", PStr "h1"); ("className", PStr "hero__title")]
               [Text (title siteConfig)];
             Element (Host "p") [("className", PStr "hero__subtitle")]
               [Text (tagline siteConfig)];
             Element (Host "div") [("className", PStr (styles "buttons"))]
               [ Element (Imported "Link")
                   [ ("className", PStr "button button--secondary button--lg");
                     ("to", PStr "/docs/intro") ]
                   [Text "Explore Our Libraries"];
                 Element (Imported "Link")
                   [ ("className", PStr "button button--primary button--lg");
                     ("to", PStr "/blog");
                     ("style", PObj [("marginLeft", "1rem")]) ]
                   [Text "Read Our Blog"] ] ] ]).

(** [Home], over the module that [@site/src/components/BuyMeACoffee]
    resolves to. *)
Definition HomeWith (SupportWidget : Render Store Node) : Render Store Node :=
  ctx <- useDocusaurusContext ;;
  let siteConfig := siteConfig ctx in
  header <- HomepageHeader ;;
  features <- HomepageFeatures ;;
  support <- SupportWidget ;;
  ret
    (Element (Imported "Layout")
       [ ("title", PStr ("Welcome to " ++ title siteConfig));
         ("description",
          PStr "Publishing excellence for Flutter and Kotlin Multiplatform libraries. Trusted by developers worldwide.") ]
       [ header;
         Element (Host "main") []
           [ features;
             Element (Host "section")
               [("style",
                 PObj [ ("background", "var(--ifm-background-surface-color)");
                        ("paddingBottom", "2rem") ])]
               [ Element (Host "div") [("className", PStr "container")]
                   [ Element (Host "h2")
                       [("style",
                         PObj [("textAlign", "center"); ("marginBottom", "1rem")])]
                       [Text "Support Our Work"];
                     Element (Host "p")
                       [("style",
                         PObj [ ("textAlign", "center");
                                ("marginBottom", "1.5rem");
                                ("color", "var(--ifm-color-emphasis-600)") ])]
                       [Text "If you find our libraries useful, consider buying us a coffee to support continued development!"];
                     support ] ] ] ]).

Definition Home : Render Store Node := HomeWith BuyMeACoffee.

(** The components of the repository, by name. *)
Inductive ComponentName : Type :=
| FeatureListC
| SupportWidgetC
| SupportWidgetPart000C
| HomepageHeaderC
| HomepageC
| HomepagePart000C.

Definition component (c : ComponentName) : Render Store Node :=
  match c with
  | FeatureListC => HomepageFeatures
  | SupportWidgetC => BuyMeACoffee
  | SupportWidgetPart000C => BuyMeACoffee_part_000
  | HomepageHeaderC => HomepageHeader
  | HomepageC => Home
  | HomepagePart000C => HomeWith BuyMeACoffee_part_000
  end.

End Components.

(* ================================================================== *)
(** * The generated route table ([.docusaurus/routes.js]) *)
(* ================================================================== *)

Module Routes.

(** [ComponentCreator(path, hash)]: a reference to the lazily loaded
    component registered under that path and hash.  The catch-all is
    created without a hash. *)
Inductive Component : Type :=
| ComponentCreator (path : string) (hash : option string).

(** A route entry.  [exact] and [sidebar] are [false] and [None] where
    the literal leaves them out; [routes] is empty where the entry has no
    children. *)
#[warnings="-register-all"]
Inductive Route : Type :=
| mkRoute (path : string) (component : Component) (exact : bool)
          (sidebar : option string) (routes : list Route).

Definition path (r : Route) : string :=
  let '(mkRoute p _ _ _ _) := r in p.
Definition component (r : Route) : Component :=
  let '(mkRoute _ c _ _ _) := r in c.
Definition exact (r : Route) : bool :=
  let '(mkRoute _ _ e _ _) := r in e.
Definition sidebar (r : Route) : option string :=
  let '(mkRoute _ _ _ s _) := r in s.
Definition children (r : Route) : list Route :=
  let '(mkRoute _ _ _ _ rs) := r in rs.

(** The three shapes of entry the file is made of. *)
Definition page (p hash : string) : Route :=
  mkRoute p (ComponentCreator p (Some hash)) true None [].
Definition doc (p hash : string) : Route :=
  mkRoute p (ComponentCreator p (Some hash)) true (Some "tutorialSidebar") [].
Definition layout (p hash : string) (rs : list Route) : Route :=
  mkRoute p (ComponentCreator p (Some hash)) false None rs.

(** The default export of [routes.js]. *)
Definition routes : list Route :=
  [ page "/blog" "f31";
    page "/blog/archive" "182";
    page "/blog/authors" "0b7";
    page "/blog/authors/brewkits" "296";
    page "/blog/flutter-publishing-guide" "093";
    page "/blog/kmp-getting-started" "303";
    page "/blog/tags" "287";
    page "/blog/tags/announcement" "e2c";
    page "/blog/tags/brewkits" "816";
    page "/blog/tags/flutter" "8b8";
    page "/blog/tags/kmp" "e7c";
    page "/blog/tags/kotlin" "50b";
    page "/blog/tags/multiplatform" "b2c";
    page "/blog/tags/pub-dev" "a72";
    page "/blog/tags/publishing" "472";
    page "/blog/tags/tutorial" "5fd";
    page "/blog/welcome-to-brewkits" "139";
    page "/markdown-page" "3d7";
    layout "/docs" "862"
      [ layout "/docs" "38f"
          [ layout "/docs" "d99"
              [ doc "/docs/flutter/best-practices" "b48";
                doc "/docs/flutter/getting-started" "771";
                doc "/docs/flutter/publishing" "a10";
                doc "/docs/intro" "61d";
                doc "/docs/kmp/best-practices" "3c7";
                doc "/docs/kmp/getting-started" "e2d";
                doc "/docs/kmp/publishing" "a36" ] ] ];
    page "/" "e5f";
    mkRoute "*" (ComponentCreator "*" None) false None [] ].

(** The flattened route tree: every entry, parents before children, in
    the order of the file. *)
Fixpoint flatten_route (r : Route) : list Route :=
  r :: match r with
       | mkRoute _ _ _ _ rs => flat_map flatten_route rs
       end.

Definition flatten (rs : list Route) : list Route :=
  flat_map flatten_route rs.

Definition paths (rs : list Route) : list string := map path (flatten rs).

(** ** Matching *)

(** The catch-all entry is the one whose path is [*]. *)
Definition is_catch_all (r : Route) : bool := String.eqb (path r) "*".

(** Modelled from the spec: the "exact-match" of the resolver's contract.
    An entry matches a navigation path exactly when its path is that
    path. *)
Definition matches_exactly (p : string) (r : Route) : bool :=
  String.eqb (path r) p.

(** Modelled from the spec: the "prefix" fallback of the resolver's
    contract.  An entry that is not marked [exact] (and is not the
    catch-all) matches every navigation path its own path is a prefix
    of. *)
Definition matches_prefix (p : string) (r : Route) : bool :=
  negb (exact r) && negb (is_catch_all r) && String.prefix (path r) p.

(** Modelled from the spec: "the most specific matching route entry".
    The more specific of two prefix matches is the one with the longer
    path; of two equally long ones, the one that comes first. *)
Fixpoint most_specific (best : option Route) (rs : list Route)
  : option Route :=
  match rs with
  | [] => best
  | r :: rest =>
      match best with
      | None => most_specific (Some r) rest
      | Some b =>
          if Nat.ltb (String.length (path b)) (String.length (path r))
          then most_specific (Some r) rest
          else most_specific best rest
      end
  end.

(** Modelled from the spec: the route resolver is a capability of the
    framework and is not part of the sources.  Per the spec's contract,
    "given a navigation path, find the most specific matching route entry
    by exact-match first, then prefix/catch-all fallback": an entry whose
    path is the navigation path if there is one, else the most specific
    prefix match, else the catch-all entry. *)
Definition resolve_entry (table : list Route) (p : string) : option Route :=
  let flat := flatten table in
  match find (matches_exactly p) flat with
  | Some r => Some r
  | None =>
      match most_specific None (filter (matches_prefix p) flat) with
      | Some r => Some r
      | None => find is_catch_all flat
      end
  end.

(** Modelled from the spec: "render its associated component". *)
Definition resolve (table : list Route) (p : string) : option Component :=
  option_map component (resolve_entry table p).

Definition not_found : Component := ComponentCreator "*" None.

End Routes.

(* ================================================================== *)
(** * Predicates the statements below are written with *)
(* ================================================================== *)

(** The string value of a prop, if it has one. *)
Definition string_prop (k : string) (n : Node) : option string :=
  match prop k n with
  | Some (PStr s) => Some s
  | _ => None
  end.

(** An anchor that opens a new browsing context. *)
Definition opens_new_context (a : Node) : Prop :=
  string_prop "target" a = Some "_blank".

(** An anchor whose destination is an absolute [https] URL. *)
Definition https_destination (a : Node) : Prop :=
  exists u, string_prop "href" a = Some u /\ String.prefix "https://" u = true.

(** An anchor that, if it opens a new browsing context, withholds the
    opener from it. *)
Definition withholds_opener (a : Node) : Prop :=
  opens_new_context a -> string_prop "rel" a = Some "noopener noreferrer".

(** What the support widget promises of its markup. *)
Definition call_to_action_links (out : Node) : Prop :=
  (length (anchors out) = 1 \/ length (anchors out) = 2) /\
  Forall (fun a => opens_new_context a /\ https_destination a) (anchors out) /\
  Exists https_destination (anchors out).

(** A column of the feature row for a given entry of [FeatureList]: a
    third of the twelve-unit grid, holding the entry's icon, an [h3]
    heading with its title, and its description. *)
Definition is_feature_column (item : FeatureItem.t) (col : Node) : Prop :=
  string_prop "className" col = Some "col col--4" /\
  length (elements (FeatureItem.Svg item) col) = 1 /\
  elements (Imported "Heading") col =
    [Element (Imported "Heading") [("as", PStr "h3")]
       [Text (FeatureItem.title item)]] /\
  In (FeatureItem.description item) (descendants col).

(** Pairwise distinctness of a list of strings, decided. *)
Fixpoint nodupb (l : list string) : bool :=
  match l with
  | [] => true
  | x :: rest => negb (existsb (String.eqb x) rest) && nodupb rest
  end.

(** A path some entry of the flattened table carries. *)
Definition defined_path (table : list Routes.Route) (p : string) : bool :=
  existsb (String.eqb p) (Routes.paths table).

(** Membership in a list that computes to explicit elements. *)
Ltac in_concrete_list :=
  simpl; repeat (first [ left; reflexivity | right ]).

(** The two new-year instants the statements about the clock use:
    2023-12-31T23:59:59.999Z and 2024-01-01T00:00:00.000Z. *)
Definition last_ms_of_2023 : Z := 1704067199999.
Definition first_ms_of_2024 : Z := 1704067200000.

(** ** Navigation targets *)

(** The internal destinations ([to]) of the configuration's navbar items
    and footer links, in the order of the file, and the sidebars its
    [docSidebar] navbar items name. *)
Definition navbar_targets (c : Config) : list string :=
  flat_map (fun i => match NavbarItem.to i with
                     | Some t => [t]
                     | None => []
                     end)
    (Navbar.items (ThemeConfig.navbar (themeConfig c))).

Definition footer_targets (c : Config) : list string :=
  match Footer.links (ThemeConfig.footer (themeConfig c)) with
  | None => []
  | Some columns =>
      flat_map (fun col =>
                  flat_map (fun i => match FooterItem.to i with
                                     | Some t => [t]
                                     | None => []
                                     end)
                    (FooterColumn.items col))
        columns
  end.

Definition navbar_sidebars (c : Config) : list string :=
  flat_map (fun i => match NavbarItem.sidebarId i with
                     | Some id => [id]
                     | None => []
                     end)
    (Navbar.items (ThemeConfig.navbar (themeConfig c))).

(** The destinations of the [<Link>]s of a tree. *)
Definition link_targets (n : Node) : list string :=
  flat_map (fun l => match string_prop "to" l with
                     | Some t => [t]
                     | None => []
                     end)
    (links n).

(** A path that an entry marked [exact] carries: a page of the site. *)
Definition is_page (table : list Routes.Route) (p : string) : bool :=
  existsb (fun r => Routes.exact r && String.eqb (Routes.path r) p)
    (Routes.flatten table).

(** A sidebar some entry of the table is filed under. *)
Definition has_sidebar (table : list Routes.Route) (id : string) : bool :=
  existsb (fun r => match Routes.sidebar r with
                    | Some s => String.eqb s id
                    | None => false
                    end)
    (Routes.flatten table).

(** ** Shape of a route tree *)

Definition component_path (c : Routes.Component) : string :=
  let '(Routes.ComponentCreator p _) := c in p.

(** The hashes of the components of the flattened tree, in order. *)
Definition hashes (table : list Routes.Route) : list string :=
  flat_map (fun r => match Routes.component r with
                     | Routes.ComponentCreator _ (Some h) => [h]
                     | Routes.ComponentCreator _ None => []
                     end)
    (Routes.flatten table).

(** Every child's path extends its parent's, all the way down. *)
Fixpoint nested_under_parent (r : Routes.Route) : bool :=
  match r with
  | Routes.mkRoute p _ _ _ rs =>
      forallb (fun c => String.prefix p (Routes.path c)
                        && nested_under_parent c) rs
  end.

(** An entry is not marked [exact] exactly when it has children or is the
    catch-all. *)
Definition exact_iff_leaf (r : Routes.Route) : bool :=
  Bool.eqb (negb (Routes.exact r))
    (match Routes.children r with
     | [] => Routes.is_catch_all r
     | _ :: _ => true
     end).

(** A CSS module that differs from the identity on one key only. *)
Definition css_with (key class : string) : CssModule :=
  fun k => if String.eqb k key then class else k.

(* ================================================================== *)
(** * The clock *)
(* ================================================================== *)

Section DateFacts.

Import Date.
Local Open Scope Z_scope.

(** [YearFromTime] meets its ECMAScript definition: the year it returns
    has started, and the next one has not. *)
Lemma YearFromTime_bounds (tv : Z) :
  TimeFromYear (YearFromTime tv) <= tv < TimeFromYear (YearFromTime tv + 1).
Proof.
  unfold YearFromTime, TimeFromYear, Day, DayFromYear, msPerDay.
  cbv zeta.
  repeat match goal with
         | |- context [if ?b then _ else _] =>
             let E := fresh "E" in
             destruct b eqn:E;
             [ first [apply Z.ltb_lt in E | apply Z.leb_le in E]
             | first [apply Z.ltb_ge in E | apply Z.leb_gt in E] ]
         end;
    Z.div_mod_to_equations; lia.
Qed.

Lemma TimeFromYear_monotone (a b : Z) :
  a <= b -> TimeFromYear a <= TimeFromYear b.
Proof.
  intros Hab. unfold TimeFromYear, DayFromYear, msPerDay.
  Z.div_mod_to_equations. lia.
Qed.

(** ... and it is the largest such year. *)
Lemma YearFromTime_largest (tv y : Z) :
  TimeFromYear y <= tv -> y <= YearFromTime tv.
Proof.
  intros Hy.
  destruct (YearFromTime_bounds tv) as [_ Hnext].
  destruct (Z_le_gt_dec y (YearFromTime tv)) as [Hle | Hgt]; [exact Hle |].
  pose proof (TimeFromYear_monotone (YearFromTime tv + 1) y ltac:(lia)).
  lia.
Qed.

Example getFullYear_epoch : getFullYear (mk 0 0) = 1970.
Proof. reflexivity. Qed.

Example getFullYear_before_epoch : getFullYear (mk (-1) 0) = 1969.
Proof. reflexivity. Qed.

Example getFullYear_leap_day_2000 : getFullYear (mk 951782400000 0) = 2000.
Proof. reflexivity. Qed.

Example getFullYear_last_ms_of_2023 : getFullYear (mk last_ms_of_2023 0) = 2023.
Proof. reflexivity. Qed.

Example getFullYear_first_ms_of_2024 : getFullYear (mk first_ms_of_2024 0) = 2024.
Proof. reflexivity. Qed.

End DateFacts.

(** [ToString] is injective on integers: two years print alike only if
    they are the same year. *)
Lemma ToString_injective (a b : Z) : ToString a = ToString b -> a = b.
Proof.
  unfold ToString. intros H.
  assert (Hnil : forall z, Z.to_int z <> Decimal.Pos Decimal.Nil
                           /\ Z.to_int z <> Decimal.Neg Decimal.Nil).
  { intros [| p | p]; simpl; split; try discriminate;
      intros E; injection E as E; exact (Unsigned.to_uint_nonnil p E). }
  destruct (Hnil a) as [Ha1 Ha2], (Hnil b) as [Hb1 Hb2].
  pose proof (NilZero.isi (Z.to_int a) Ha1 Ha2) as Ia.
  pose proof (NilZero.isi (Z.to_int b) Hb1 Hb2) as Ib.
  rewrite H in Ia. rewrite Ia in Ib. injection Ib as Ib.
  apply DecimalZ.to_int_inj. exact Ib.
Qed.

(* ================================================================== *)
(** * The site configuration and the clock *)
(* ================================================================== *)

Lemma length_append (a b : string) :
  String.length (a ++ b) = String.length a + String.length b.
Proof.
  induction a as [| c a IH]; simpl; [reflexivity | now rewrite IH].
Qed.

(** Appending the same tail to two strings keeps them apart. *)
Lemma append_cancel_r (a b s : string) : a ++ s = b ++ s -> a = b.
Proof.
  revert b.
  induction a as [| c a IH]; intros [| c' b] H; simpl in H.
  - reflexivity.
  - apply (f_equal String.length) in H. simpl in H.
    rewrite length_append in H. lia.
  - apply (f_equal String.length) in H. simpl in H.
    rewrite length_append in H. lia.
  - injection H as Hc Hrest. subst c'. f_equal. apply IH. exact Hrest.
Qed.

(** The footer line of either revision is the year of the clock between
    two literals. *)
Lemma copyright_of_config (now : Date.t) :
  copyright_of (config now) =
    "Copyright © " ++ ToString (Date.getFullYear now)
      ++ " BrewKits. Built with Docusaurus."
  /\ copyright_of (config_part_002 now) = copyright_of (config now).
Proof.
  split; reflexivity.
Qed.

(** Everything but the footer line is fixed by the literals: with that
    line overwritten, the clock no longer shows. *)
Lemma config_static_part (d1 d2 : Date.t) (line : string) :
  with_copyright (config d1) line = with_copyright (config d2) line
  /\ with_copyright (config_part_002 d1) line
     = with_copyright (config_part_002 d2) line.
Proof.
  split; reflexivity.
Qed.

Lemma config_is_static_part_with_year (now : Date.t) :
  config now = with_copyright (config now) (copyright_of (config now))
  /\ config_part_002 now
     = with_copyright (config_part_002 now) (copyright_of (config now)).
Proof.
  split; reflexivity.
Qed.

(** Two constructions agree exactly when their clocks read the same
    year. *)
Lemma config_eq_iff_same_year (d1 d2 : Date.t) :
  config d1 = config d2 <-> Date.getFullYear d1 = Date.getFullYear d2.
Proof.
  split.
  - intros H. apply (f_equal copyright_of) in H.
    destruct (copyright_of_config d1) as [E1 _].
    destruct (copyright_of_config d2) as [E2 _].
    rewrite E1, E2 in H.
    apply ToString_injective.
    apply append_cancel_r with (s := " BrewKits. Built with Docusaurus.").
    simpl in H.
    repeat match type of H with
           | String ?c _ = String ?c _ => injection H as H
           end.
    exact H.
  - intros H.
    destruct (config_is_static_part_with_year d1) as [S1 _].
    destruct (config_is_static_part_with_year d2) as [S2 _].
    rewrite S1, S2.
    destruct (copyright_of_config d1) as [E1 _].
    destruct (copyright_of_config d2) as [E2 _].
    rewrite E1, E2, H.
    apply (config_static_part d1 d2).
Qed.

(** C6, as the spec states it, fails: the configuration built in the last
    millisecond of 2023 (UTC) and the one built a millisecond later carry
    different footer lines, and so do two built at the same instant on
    hosts one hour of time zone apart. *)
Lemma C6_copyright_follows_the_clock :
  copyright_of (config (Date.mk last_ms_of_2023 0))
    = "Copyright © 2023 BrewKits. Built with Docusaurus."
  /\ copyright_of (config (Date.mk first_ms_of_2024 0))
    = "Copyright © 2024 BrewKits. Built with Docusaurus."
  /\ config (Date.mk last_ms_of_2023 0) <> config (Date.mk first_ms_of_2024 0)
  /\ config (Date.mk last_ms_of_2023 0)
     <> config (Date.mk last_ms_of_2023 3600000)
  /\ config_part_002 (Date.mk last_ms_of_2023 0)
     <> config_part_002 (Date.mk first_ms_of_2024 0).
Proof.
  split; [reflexivity |].
  split; [reflexivity |].
  split; [| split].
  - intros H. apply config_eq_iff_same_year in H. discriminate H.
  - intros H. apply config_eq_iff_same_year in H. discriminate H.
  - intros H. apply (f_equal copyright_of) in H. discriminate H.
Qed.

(** C6, amended: the configuration is determined by the literals of the
    file and the calendar year the host clock reads (in local time) when
    the file is loaded.  Two constructions whose clocks read the same year
    yield the same configuration in every field, the footer copyright
    line included; this holds for both revisions of the file. *)
Theorem C6_config_determined_by_year (d1 d2 : Date.t)
  (Hyear : Date.getFullYear d1 = Date.getFullYear d2) :
  config d1 = config d2 /\ config_part_002 d1 = config_part_002 d2.
Proof.
  split.
  - apply config_eq_iff_same_year. exact Hyear.
  - destruct (config_is_static_part_with_year d1) as [_ S1].
    destruct (config_is_static_part_with_year d2) as [_ S2].
    rewrite S1, S2.
    destruct (copyright_of_config d1) as [E1 _].
    destruct (copyright_of_config d2) as [E2 _].
    rewrite E1, E2, Hyear.
    apply (config_static_part d1 d2).
Qed.

(** Two different instants of 2024, on hosts in different time zones:
    midnight UTC on the first of January, and one day later at UTC+1. *)
Lemma C6_config_determined_by_year_witness :
  Date.mk first_ms_of_2024 0 <> Date.mk (first_ms_of_2024 + 86400000) 3600000
  /\ config (Date.mk first_ms_of_2024 0)
     = config (Date.mk (first_ms_of_2024 + 86400000) 3600000)
  /\ config_part_002 (Date.mk first_ms_of_2024 0)
     = config_part_002 (Date.mk (first_ms_of_2024 + 86400000) 3600000).
Proof.
  split.
  - discriminate.
  - apply (C6_config_determined_by_year
             (Date.mk first_ms_of_2024 0)
             (Date.mk (first_ms_of_2024 + 86400000) 3600000)).
    reflexivity.
Defined.

(* ================================================================== *)
(** * The render monad *)
(* ================================================================== *)

Section RenderFacts.

Variable Store : Type.

Lemma stateless_ret (A : Type) (a : A) : stateless (@ret Store A a).
Proof.
  intros ctx st st'. split; reflexivity.
Qed.

Lemma stateless_useDocusaurusContext :
  stateless (@useDocusaurusContext Store).
Proof.
  intros ctx st st'. split; reflexivity.
Qed.

Lemma stateless_bind (A B : Type) (m : Render Store A)
  (k : A -> Render Store B) :
  stateless m -> (forall a, stateless (k a)) -> stateless (bind m k).
Proof.
  intros Hm Hk ctx st st'.
  destruct (Hm ctx st st') as [Hst Hout].
  destruct (Hm ctx st' st') as [Hst' _].
  unfold store_after, markup, bind in *.
  destruct (m ctx st) as [a s1] eqn:E1.
  destruct (m ctx st') as [a' s1'] eqn:E2.
  simpl in Hst, Hout, Hst'. subst s1 s1' a'.
  exact (Hk a ctx st st').
Qed.

Lemma stateless_mapM (A B : Type) (f : A -> nat -> Render Store B) :
  (forall x i, stateless (f x i)) ->
  forall xs i, stateless (mapM f i xs).
Proof.
  intros Hf xs.
  induction xs as [| x rest IH]; intros i; simpl.
  - apply stateless_ret.
  - apply stateless_bind; [apply Hf |].
    intros y. apply stateless_bind; [apply IH |].
    intros ys. apply stateless_ret.
Qed.

(** Rendering a stateless component twice in a row gives the same markup
    twice and leaves the store as it found it. *)
Lemma stateless_twice (A : Type) (m : Render Store A) :
  stateless m ->
  forall ctx st,
    fst (markup (twice m) ctx st) = snd (markup (twice m) ctx st)
    /\ fst (markup (twice m) ctx st) = markup m ctx st
    /\ store_after (twice m) ctx st = st.
Proof.
  intros Hm ctx st.
  destruct (Hm ctx st st) as [Hst _].
  unfold twice, store_after, markup, bind, ret in *.
  destruct (m ctx st) as [a s1] eqn:E1. simpl in Hst. subst s1.
  rewrite E1. simpl. repeat split.
Qed.

(** A list of stateless renders maps to one column per element. *)
Lemma mapM_length (A B : Type) (f : A -> nat -> Render Store B)
  (xs : list A) (i : nat) (ctx : DocusaurusContext) (st : Store) :
  length (markup (mapM f i xs) ctx st) = length xs.
Proof.
  revert i st.
  induction xs as [| x rest IH]; intros i st; simpl; [reflexivity |].
  unfold markup, bind in *.
  destruct (f x i ctx st) as [y s1].
  specialize (IH (S i) s1).
  destruct (mapM f (S i) rest ctx s1) as [ys s2].
  simpl in *. now rewrite IH.
Qed.

End RenderFacts.

(* ================================================================== *)
(** * The components *)
(* ================================================================== *)

Section ComponentFacts.

Variable Store : Type.
Variables features_css coffee_css index_css : CssModule.

(** [Feature] returns its markup and leaves the store alone. *)
Lemma Feature_stateless (props : FeatureItem.t) :
  stateless (Feature Store features_css props).
Proof.
  unfold Feature. apply stateless_ret.
Qed.

Lemma HomepageFeatures_stateless :
  stateless (HomepageFeatures Store features_css).
Proof.
  unfold HomepageFeatures.
  apply stateless_bind.
  - apply stateless_mapM. intros x i. apply Feature_stateless.
  - intros columns. apply stateless_ret.
Qed.

Lemma BuyMeACoffee_stateless : stateless (BuyMeACoffee Store coffee_css).
Proof.
  unfold BuyMeACoffee. apply stateless_ret.
Qed.

Lemma BuyMeACoffee_part_000_stateless :
  stateless (BuyMeACoffee_part_000 Store coffee_css).
Proof.
  unfold BuyMeACoffee_part_000. apply stateless_ret.
Qed.

Lemma HomepageHeader_stateless : stateless (HomepageHeader Store index_css).
Proof.
  unfold HomepageHeader.
  apply stateless_bind.
  - apply stateless_useDocusaurusContext.
  - intros ctx. apply stateless_ret.
Qed.

Lemma HomeWith_stateless (widget : Render Store Node) :
  stateless widget ->
  stateless (HomeWith Store features_css index_css widget).
Proof.
  intros Hw. unfold HomeWith.
  apply stateless_bind; [apply stateless_useDocusaurusContext |].
  intros ctx.
  apply stateless_bind; [apply HomepageHeader_stateless |].
  intros header.
  apply stateless_bind; [apply HomepageFeatures_stateless |].
  intros features.
  apply stateless_bind; [exact Hw |].
  intros support. apply stateless_ret.
Qed.

(** C1: whatever the context and the store, [HomepageFeatures] renders a
    section holding one row of exactly three columns, one per entry of the
    compiled-in [FeatureList] and in its order; every column spans the
    same four grid units and holds the entry's icon, an [h3] heading with
    the entry's title and the entry's description; every title and every
    description is non-empty text. *)
Theorem C1_feature_row_has_three_equal_columns
  (ctx : DocusaurusContext) (st : Store) :
  exists columns : list Node,
    markup (HomepageFeatures Store features_css) ctx st =
      Element (Host "section") [("className", PStr (features_css "features"))]
        [ Element (Host "div") [("className", PStr "container")]
            [ Element (Host "div") [("className", PStr "row")] columns ] ]
    /\ length columns = 3
    /\ length FeatureList = 3
    /\ Forall2 is_feature_column FeatureList columns
    /\ Forall (fun item =>
                 FeatureItem.title item <> ""
                 /\ textContent (FeatureItem.description item) <> "")
              FeatureList.
Proof.
  eexists. split.
  - unfold markup, HomepageFeatures, Feature, FeatureList. simpl.
    reflexivity.
  - split; [reflexivity |].
    split; [reflexivity |].
    split.
    + unfold FeatureList.
      repeat (apply Forall2_cons; [| ]); try apply Forall2_nil;
        unfold is_feature_column; simpl;
        (split; [reflexivity |]);
        (split; [reflexivity |]);
        (split; [reflexivity |]);
        in_concrete_list.
    + unfold FeatureList.
      repeat apply Forall_cons; try apply Forall_nil;
        simpl; split; discriminate.
Qed.

(** C2: both revisions of [BuyMeACoffee] render one or two anchors, every
    one of them opening a new browsing context on an absolute [https]
    destination; so at least one rendered link begins with ["https://"]. *)
Theorem C2_support_widget_links (ctx : DocusaurusContext) (st : Store) :
  call_to_action_links (markup (BuyMeACoffee Store coffee_css) ctx st)
  /\ length (anchors (markup (BuyMeACoffee Store coffee_css) ctx st)) = 1
  /\ call_to_action_links
       (markup (BuyMeACoffee_part_000 Store coffee_css) ctx st)
  /\ length
       (anchors (markup (BuyMeACoffee_part_000 Store coffee_css) ctx st)) = 2.
Proof.
  assert (Hcoffee : forall cls kids,
             opens_new_context
               (Element (Host "a")
                  [ ("href", PStr "https://www.buymeacoffee.com/brewkits");
                    ("target", PStr "_blank");
                    ("rel", PStr "noopener noreferrer");
                    ("className", PStr cls) ] kids)
             /\ https_destination
                  (Element (Host "a")
                     [ ("href", PStr "https://www.buymeacoffee.com/brewkits");
                       ("target", PStr "_blank");
                       ("rel", PStr "noopener noreferrer");
                       ("className", PStr cls) ] kids)).
  { intros cls kids. split; [reflexivity |].
    exists "https://www.buymeacoffee.com/brewkits". split; reflexivity. }
  assert (Hpatreon : forall cls kids,
             opens_new_context
               (Element (Host "a")
                  [ ("href", PStr "https://www.patreon.com/brewkits");
                    ("target", PStr "_blank");
                    ("rel", PStr "noopener noreferrer");
                    ("className", PStr cls) ] kids)
             /\ https_destination
                  (Element (Host "a")
                     [ ("href", PStr "https://www.patreon.com/brewkits");
                       ("target", PStr "_blank");
                       ("rel", PStr "noopener noreferrer");
                       ("className", PStr cls) ] kids)).
  { intros cls kids. split; [reflexivity |].
    exists "https://www.patreon.com/brewkits". split; reflexivity. }
  unfold call_to_action_links, markup, BuyMeACoffee, BuyMeACoffee_part_000.
  simpl.
  repeat split.
  - left. reflexivity.
  - apply Forall_cons; [apply Hcoffee | apply Forall_nil].
  - apply Exists_cons_hd. apply Hcoffee.
  - right. reflexivity.
  - apply Forall_cons; [apply Hcoffee |].
    apply Forall_cons; [apply Hpatreon | apply Forall_nil].
  - apply Exists_cons_hd. apply Hcoffee.
Qed.

(** C10: in both revisions of [BuyMeACoffee], every rendered anchor that
    targets a new browsing context carries [rel="noopener noreferrer"];
    and every rendered anchor does target one, so none of them hands the
    opened page a reference to its opener. *)
Theorem C10_new_context_links_withhold_opener
  (ctx : DocusaurusContext) (st : Store) :
  Forall (fun a => withholds_opener a /\ opens_new_context a)
    (anchors (markup (BuyMeACoffee Store coffee_css) ctx st))
  /\ Forall (fun a => withholds_opener a /\ opens_new_context a)
       (anchors (markup (BuyMeACoffee_part_000 Store coffee_css) ctx st)).
Proof.
  unfold markup, BuyMeACoffee, BuyMeACoffee_part_000. simpl.
  split.
  - apply Forall_cons; [| apply Forall_nil].
    split; [intros _ |]; reflexivity.
  - apply Forall_cons; [| apply Forall_cons; [| apply Forall_nil]].
    + split; [intros _ |]; reflexivity.
    + split; [intros _ |]; reflexivity.
Qed.

(** C3: for every site configuration, [Home] renders the framework's
    [Layout] around a header and the page body; the header is the
    [HomepageHeader] markup, whose [h1] heading holds the configured title
    and whose subtitle paragraph holds the configured tagline, both
    verbatim, and whose only two [Link]s go to [/docs/intro] and to
    [/blog], in that order.  With the repository's configuration (either
    revision, at any clock), the two strings are ["BrewKits"] and the
    configured tagline. *)
Theorem C3_homepage_header_shows_title_and_tagline
  (ctx : DocusaurusContext) (st : Store) :
  (exists props header body,
     markup (Home Store features_css coffee_css index_css) ctx st
       = Element (Imported "Layout") props [header; body]
     /\ header = markup (HomepageHeader Store index_css) ctx st
     /\ has_type (Host "header") header = true
     /\ elements (Imported "Heading") header =
          [ Element (Imported "Heading")
              [("as", PStr "h1"); ("className", PStr "hero__title")]
              [Text (title (siteConfig ctx))] ]
     /\ elements (Host "p") header =
          [ Element (Host "p") [("className", PStr "hero__subtitle")]
              [Text (tagline (siteConfig ctx))] ]
     /\ In (title (siteConfig ctx)) (texts header)
     /\ In (tagline (siteConfig ctx)) (texts header)
     /\ map (string_prop "to") (links header)
        = [Some "/docs/intro"; Some "/blog"])
  /\ (forall now : Date.t,
        In "BrewKits"
          (texts (markup (HomepageHeader Store index_css)
                    (mkContext (config now)) st))
        /\ In "Publishing Excellence for Flutter & Kotlin Multiplatform Libraries"
             (texts (markup (HomepageHeader Store index_css)
                       (mkContext (config now)) st))
        /\ In "BrewKits"
             (texts (markup (HomepageHeader Store index_css)
                       (mkContext (config_part_002 now)) st))
        /\ In "The Traffic Control System for your App Architecture"
             (texts (markup (HomepageHeader Store index_css)
                       (mkContext (config_part_002 now)) st))).
Proof.
  split.
  - exists [ ("title", PStr ("Welcome to " ++ title (siteConfig ctx)));
             ("description",
              PStr "Publishing excellence for Flutter and Kotlin Multiplatform libraries. Trusted by developers worldwide.") ].
    exists (markup (HomepageHeader Store index_css) ctx st).
    eexists.
    split.
    + unfold Home, HomeWith, HomepageHeader, markup, bind,
        useDocusaurusContext, ret.
      simpl. reflexivity.
    + unfold HomepageHeader, markup, bind, useDocusaurusContext, ret.
      simpl.
      split; [reflexivity |].
      split; [reflexivity |].
      split; [reflexivity |].
      split; [reflexivity |].
      split; [left; reflexivity |].
      split; [right; left; reflexivity | reflexivity].
  - intros now.
    unfold HomepageHeader, markup, bind, useDocusaurusContext, ret.
    simpl.
    split; [left; reflexivity |].
    split; [right; left; reflexivity |].
    split; [left; reflexivity | right; left; reflexivity].
Qed.

(** C4: every component of the repository is stateless: a render leaves
    the store as it found it, and its markup does not depend on the
    store.  So rendering a component twice in a row, in the same context,
    gives the same markup both times. *)
Theorem C4_rendering_is_idempotent
  (c : ComponentName) (ctx : DocusaurusContext) (st st' : Store) :
  stateless (component Store features_css coffee_css index_css c)
  /\ fst (markup (twice (component Store features_css coffee_css index_css c))
            ctx st)
     = snd (markup (twice (component Store features_css coffee_css index_css c))
              ctx st)
  /\ store_after (twice (component Store features_css coffee_css index_css c))
       ctx st = st
  /\ markup (component Store features_css coffee_css index_css c) ctx st
     = markup (component Store features_css coffee_css index_css c) ctx st'.
Proof.
  assert (Hc : stateless
                 (component Store features_css coffee_css index_css c)).
  { destruct c; simpl.
    - apply HomepageFeatures_stateless.
    - apply BuyMeACoffee_stateless.
    - apply BuyMeACoffee_part_000_stateless.
    - apply HomepageHeader_stateless.
    - unfold Home. apply HomeWith_stateless, BuyMeACoffee_stateless.
    - apply HomeWith_stateless, BuyMeACoffee_part_000_stateless. }
  split; [exact Hc |].
  destruct (@stateless_twice _ _ _ Hc ctx st) as (Hsame & _ & Hstore).
  split; [exact Hsame |].
  split; [exact Hstore |].
  apply (Hc ctx st st').
Qed.

(** C5: [HomepageHeader] reads the title and the tagline of the site
    configuration and nothing else of it: two contexts whose
    configurations agree on those two fields render the same header,
    however the configurations differ elsewhere. *)
Theorem C5_header_depends_on_title_and_tagline_only
  (ctx1 ctx2 : DocusaurusContext) (st : Store)
  (Htitle : title (siteConfig ctx1) = title (siteConfig ctx2))
  (Htagline : tagline (siteConfig ctx1) = tagline (siteConfig ctx2)) :
  markup (HomepageHeader Store index_css) ctx1 st
  = markup (HomepageHeader Store index_css) ctx2 st.
Proof.
  unfold markup, HomepageHeader, bind, useDocusaurusContext, ret. simpl.
  rewrite Htitle, Htagline. reflexivity.
Qed.

End ComponentFacts.

(** Two configurations that differ (in the footer line: one built in 2023,
    one in 2024) and agree on title and tagline render the same header. *)
Lemma C5_header_depends_on_title_and_tagline_only_witness :
  config (Date.mk last_ms_of_2023 0) <> config (Date.mk first_ms_of_2024 0)
  /\ markup (HomepageHeader unit (fun key => key))
       (mkContext (config (Date.mk last_ms_of_2023 0))) tt
     = markup (HomepageHeader unit (fun key => key))
         (mkContext (config (Date.mk first_ms_of_2024 0))) tt.
Proof.
  split.
  - intros H. apply config_eq_iff_same_year in H. discriminate H.
  - apply (C5_header_depends_on_title_and_tagline_only
             unit (fun key => key)
             (mkContext (config (Date.mk last_ms_of_2023 0)))
             (mkContext (config (Date.mk first_ms_of_2024 0)))
             tt);
      reflexivity.
Defined.

(* ================================================================== *)
(** * The route table *)
(* ================================================================== *)

Section RouteFacts.

Import Routes.

(** ** Lists of strings *)

Lemma existsb_eqb_In (x : string) (l : list string) :
  existsb (String.eqb x) l = true <-> In x l.
Proof.
  rewrite existsb_exists. split.
  - intros (y & Hy & E). apply String.eqb_eq in E. now subst y.
  - intros H. exists x. split; [exact H | apply String.eqb_refl].
Qed.

Lemma nodupb_NoDup (l : list string) : nodupb l = true -> NoDup l.
Proof.
  induction l as [| x rest IH]; simpl; intros H.
  - constructor.
  - apply andb_true_iff in H as [Hx Hrest].
    constructor.
    + intros Hin. apply existsb_eqb_In in Hin.
      rewrite Hin in Hx. discriminate Hx.
    + apply IH. exact Hrest.
Qed.

(** A list in which two positions hold the same string has a duplicate. *)
Lemma repeated_not_NoDup (l : list string) (i j : nat) (x : string) :
  i < j -> nth_error l i = Some x -> nth_error l j = Some x -> ~ NoDup l.
Proof.
  intros Hij Hi Hj Hnd.
  rewrite NoDup_nth_error in Hnd.
  assert (Hlen : i < length l).
  { apply nth_error_Some. rewrite Hi. discriminate. }
  specialize (Hnd i j Hlen). rewrite Hi, Hj in Hnd.
  specialize (Hnd eq_refl). lia.
Qed.

(** ** The resolver, on any table *)

Lemma defined_path_In (table : list Route) (p : string) :
  defined_path table p = true <-> In p (paths table).
Proof.
  unfold defined_path. apply existsb_eqb_In.
Qed.

Lemma path_of_entry_defined (table : list Route) (r : Route) :
  In r (flatten table) -> defined_path table (path r) = true.
Proof.
  intros Hin. apply defined_path_In. unfold paths.
  apply in_map. exact Hin.
Qed.

(** Exact matches come first: an entry that carries the navigation path
    is chosen whatever prefix and catch-all entries would also match. *)
Lemma resolve_entry_exact_first (table : list Route) (p : string) (r : Route) :
  find (matches_exactly p) (flatten table) = Some r ->
  resolve_entry table p = Some r /\ path r = p.
Proof.
  intros Hfind. unfold resolve_entry. rewrite Hfind.
  split; [reflexivity |].
  apply find_some in Hfind as [_ Hm].
  apply String.eqb_eq. exact Hm.
Qed.

(** A path no entry carries has no exact match. *)
Lemma undefined_path_has_no_exact_match (table : list Route) (p : string) :
  defined_path table p = false ->
  find (matches_exactly p) (flatten table) = None.
Proof.
  intros Hundef.
  destruct (find (matches_exactly p) (flatten table)) as [r |] eqn:E;
    [| reflexivity].
  apply find_some in E as [Hin Hm].
  apply String.eqb_eq in Hm. subst p.
  rewrite (path_of_entry_defined table r Hin) in Hundef.
  discriminate Hundef.
Qed.

(** With no exact and no prefix match, resolution falls through to the
    first catch-all entry. *)
Lemma resolve_entry_falls_through (table : list Route) (p : string) :
  defined_path table p = false ->
  filter (matches_prefix p) (flatten table) = [] ->
  resolve_entry table p = find is_catch_all (flatten table).
Proof.
  intros Hundef Hnone. unfold resolve_entry.
  rewrite (undefined_path_has_no_exact_match table p Hundef), Hnone.
  reflexivity.
Qed.

(** What resolution returns is an entry of the table. *)
Lemma most_specific_In (rs : list Route) (best : option Route) (r : Route) :
  most_specific best rs = Some r -> best = Some r \/ In r rs.
Proof.
  revert best.
  induction rs as [| x rest IH]; intros best H; simpl in H.
  - left. exact H.
  - destruct best as [b |].
    + destruct (Nat.ltb (String.length (path b)) (String.length (path x))).
      * destruct (IH _ H) as [E | Hin].
        -- right. left. now injection E.
        -- right. right. exact Hin.
      * destruct (IH _ H) as [E | Hin]; [left; exact E | right; right; exact Hin].
    + destruct (IH _ H) as [E | Hin].
      * right. left. now injection E.
      * right. right. exact Hin.
Qed.

Lemma resolve_entry_In (table : list Route) (p : string) (r : Route) :
  resolve_entry table p = Some r -> In r (flatten table).
Proof.
  unfold resolve_entry. intros H.
  destruct (find (matches_exactly p) (flatten table)) as [r1 |] eqn:E1.
  - injection H as <-. apply find_some in E1 as [Hin _]. exact Hin.
  - destruct (most_specific None (filter (matches_prefix p) (flatten table)))
      as [r2 |] eqn:E2.
    + injection H as <-.
      apply most_specific_In in E2 as [E | Hin]; [discriminate E |].
      apply filter_In in Hin as [Hin _]. exact Hin.
    + apply find_some in H as [Hin _]. exact Hin.
Qed.

(** ** The table of [routes.js] *)

(** The entries not marked [exact] are the three nested [/docs] layouts;
    they are the only ones that match by prefix. *)
Lemma prefix_matches_of_routes (p : string) :
  map component (filter (matches_prefix p) (flatten routes))
  = if String.prefix "/docs" p
    then [ ComponentCreator "/docs" (Some "862");
           ComponentCreator "/docs" (Some "38f");
           ComponentCreator "/docs" (Some "d99") ]
    else [].
Proof.
  unfold matches_prefix, routes, flatten.
  cbn -[String.prefix].
  destruct (String.prefix "/docs" p); reflexivity.
Qed.

Lemma no_prefix_match_outside_docs (p : string) :
  String.prefix "/docs" p = false ->
  filter (matches_prefix p) (flatten routes) = [].
Proof.
  intros Hp.
  pose proof (prefix_matches_of_routes p) as H. rewrite Hp in H.
  destruct (filter (matches_prefix p) (flatten routes)); [reflexivity |].
  discriminate H.
Qed.

(** An undefined path under [/docs] is claimed by the outermost layout. *)
Lemma resolve_undefined_under_docs (p : string) :
  defined_path routes p = false ->
  String.prefix "/docs" p = true ->
  resolve routes p = Some (ComponentCreator "/docs" (Some "862")).
Proof.
  intros Hundef Hp.
  unfold resolve, resolve_entry.
  rewrite (undefined_path_has_no_exact_match routes p Hundef).
  unfold matches_prefix, routes, flatten.
  cbn -[String.prefix].
  rewrite Hp. reflexivity.
Qed.

(** No resolver, whatever its rule, can return for the one path [/docs]
    each of the components the table attaches to it. *)
Lemma no_resolver_designates_all (res : string -> option Component) :
  ~ (forall r, In r (flatten routes) -> res (path r) = Some (component r)).
Proof.
  intros Hall.
  assert (H1 : exists r, nth_error (flatten routes) 18 = Some r
                         /\ path r = "/docs"
                         /\ component r = ComponentCreator "/docs" (Some "862")).
  { eexists. split; [reflexivity | split; reflexivity]. }
  assert (H2 : exists r, nth_error (flatten routes) 19 = Some r
                         /\ path r = "/docs"
                         /\ component r = ComponentCreator "/docs" (Some "38f")).
  { eexists. split; [reflexivity | split; reflexivity]. }
  destruct H1 as (r1 & N1 & P1 & C1), H2 as (r2 & N2 & P2 & C2).
  pose proof (Hall r1 (nth_error_In _ _ N1)) as E1.
  pose proof (Hall r2 (nth_error_In _ _ N2)) as E2.
  rewrite P1, C1 in E1. rewrite P2, C2 in E2.
  rewrite E1 in E2. discriminate E2.
Qed.

(** An entry marked [exact] is the first entry that carries its path. *)
Lemma exact_entry_is_first_with_its_path (r : Route) :
  In r (flatten routes) -> exact r = true ->
  find (matches_exactly (path r)) (flatten routes) = Some r.
Proof.
  intros Hin Hexact.
  unfold routes, flatten in Hin. simpl in Hin.
  repeat (destruct Hin as [<- | Hin]);
    try discriminate Hexact; try contradiction; reflexivity.
Qed.

(** C7, as the spec states it, fails on the path [/docs]: the table
    attaches three components to it (the nested documentation layouts),
    and resolving [/docs] yields the outermost one; the entry that pairs
    [/docs] with the second layout is in the table and is not what its
    path resolves to. *)
Lemma C7_docs_path_has_three_components :
  exists r : Route,
    In r (flatten routes)
    /\ path r = "/docs"
    /\ component r = ComponentCreator "/docs" (Some "38f")
    /\ resolve routes (path r) = Some (ComponentCreator "/docs" (Some "862"))
    /\ resolve routes (path r) <> Some (component r).
Proof.
  assert (H : exists r, nth_error (flatten routes) 19 = Some r
                        /\ path r = "/docs"
                        /\ component r = ComponentCreator "/docs" (Some "38f")).
  { eexists. split; [reflexivity | split; reflexivity]. }
  destruct H as (r & Hnth & Hpath & Hcomp).
  exists r.
  split; [exact (nth_error_In _ _ Hnth) |].
  split; [exact Hpath |].
  split; [exact Hcomp |].
  rewrite Hpath, Hcomp.
  split; [reflexivity | discriminate].
Qed.

(** C7, amended: for every entry of the table that is marked [exact]
    (every page and every document, [/], [/docs/intro] and [/blog] among
    them), resolving exactly its path yields that entry and its component;
    the exact match is taken although the [/docs] layouts match documents
    by prefix and the catch-all matches everything. *)
Theorem C7_exact_paths_resolve_to_their_component (r : Route)
  (Hin : In r (flatten routes)) (Hexact : exact r = true) :
  resolve_entry routes (path r) = Some r
  /\ resolve routes (path r) = Some (component r).
Proof.
  pose proof (exact_entry_is_first_with_its_path r Hin Hexact) as Hfirst.
  apply resolve_entry_exact_first in Hfirst as [Hres _].
  split; [exact Hres |].
  unfold resolve. rewrite Hres. reflexivity.
Qed.

(** The three paths the spec names. *)
Lemma C7_exact_paths_resolve_to_their_component_witness :
  resolve routes "/" = Some (ComponentCreator "/" (Some "e5f"))
  /\ resolve routes "/docs/intro"
     = Some (ComponentCreator "/docs/intro" (Some "61d"))
  /\ resolve routes "/blog" = Some (ComponentCreator "/blog" (Some "f31")).
Proof.
  split; [| split].
  - apply (C7_exact_paths_resolve_to_their_component (page "/" "e5f"));
      [in_concrete_list | reflexivity].
  - apply (C7_exact_paths_resolve_to_their_component
             (doc "/docs/intro" "61d"));
      [in_concrete_list | reflexivity].
  - apply (C7_exact_paths_resolve_to_their_component (page "/blog" "f31"));
      [in_concrete_list | reflexivity].
Defined.

(** The precedence is not idle: [/docs/intro] is also matched by the
    three layouts, by prefix, and the table has a catch-all. *)
Lemma docs_intro_has_other_matches :
  length (filter (matches_prefix "/docs/intro") (flatten routes)) = 3
  /\ length (filter is_catch_all (flatten routes)) = 1
  /\ resolve routes "/docs/intro"
     = Some (ComponentCreator "/docs/intro" (Some "61d")).
Proof.
  split; [reflexivity |].
  split; reflexivity.
Qed.

(** The path all three layouts carry resolves to the outermost of them,
    and the catch-all's own path to the catch-all. *)
Lemma resolve_docs_and_star :
  resolve routes "/docs" = Some (ComponentCreator "/docs" (Some "862"))
  /\ resolve routes "*" = Some not_found.
Proof.
  split; reflexivity.
Qed.

(** C8, as the spec states it, fails: [/docs/missing] is not a path of
    the table, and it resolves to the outermost [/docs] layout, which
    claims it by prefix, not to the catch-all. *)
Lemma C8_undefined_docs_path_is_not_caught :
  defined_path routes "/docs/missing" = false
  /\ ~ In "/docs/missing" (paths routes)
  /\ resolve routes "/docs/missing"
     = Some (ComponentCreator "/docs" (Some "862"))
  /\ resolve routes "/docs/missing" <> Some not_found.
Proof.
  assert (Hundef : defined_path routes "/docs/missing" = false)
    by reflexivity.
  split; [exact Hundef |].
  split.
  - intros Hin. apply defined_path_In in Hin.
    rewrite Hundef in Hin. discriminate Hin.
  - rewrite (resolve_undefined_under_docs "/docs/missing" Hundef eq_refl).
    split; [reflexivity | discriminate].
Qed.

(** C8, amended: every path that is not a path of the table and does not
    begin with [/docs] resolves to the catch-all not-found component. *)
Theorem C8_unmatched_paths_reach_not_found (p : string)
  (Hundef : defined_path routes p = false)
  (Hdocs : String.prefix "/docs" p = false) :
  resolve routes p = Some not_found.
Proof.
  unfold resolve.
  rewrite (resolve_entry_falls_through routes p Hundef
             (no_prefix_match_outside_docs p Hdocs)).
  reflexivity.
Qed.

Lemma C8_unmatched_paths_reach_not_found_witness :
  resolve routes "/pricing" = Some not_found.
Proof.
  apply (C8_unmatched_paths_reach_not_found "/pricing"); reflexivity.
Defined.

(** Resolution is total on this table: every navigation path resolves to
    an entry of the table. *)
Lemma resolve_is_total (p : string) :
  exists r, resolve_entry routes p = Some r /\ In r (flatten routes).
Proof.
  destruct (resolve_entry routes p) as [r |] eqn:E.
  - exists r. split; [reflexivity | exact (resolve_entry_In routes p r E)].
  - exfalso. unfold resolve_entry in E.
    destruct (find (matches_exactly p) (flatten routes)); [discriminate E |].
    destruct (most_specific None (filter (matches_prefix p) (flatten routes)));
      [discriminate E |].
    discriminate E.
Qed.

(** C9, as the spec states it, fails in its first half: the flattened
    tree carries [/docs] at positions 18, 19 and 20, so its paths are not
    pairwise distinct. *)
Lemma C9_docs_path_is_repeated :
  nth_error (paths routes) 18 = Some "/docs"
  /\ nth_error (paths routes) 19 = Some "/docs"
  /\ nth_error (paths routes) 20 = Some "/docs"
  /\ ~ NoDup (paths routes).
Proof.
  split; [reflexivity |].
  split; [reflexivity |].
  split; [reflexivity |].
  apply (@repeated_not_NoDup (paths routes) 18 19 "/docs");
    [lia | reflexivity | reflexivity].
Qed.

(** C9, amended: the table is a constant of the program, and in its
    flattened tree all paths other than [/docs] are pairwise distinct;
    [/docs] is carried by exactly three entries, the nested layouts, which
    are the entries not marked [exact] besides the catch-all; the paths of
    the entries marked [exact] are pairwise distinct; and the catch-all
    [*] is the last entry of the route sequence and the only catch-all of
    the tree. *)
Theorem C9_route_table_shape :
  NoDup (filter (fun p => negb (String.eqb p "/docs")) (paths routes))
  /\ length (filter (String.eqb "/docs") (paths routes)) = 3
  /\ map path (filter (fun r => negb (exact r)) (flatten routes))
     = ["/docs"; "/docs"; "/docs"; "*"]
  /\ NoDup (map path (filter exact (flatten routes)))
  /\ (exists front : list Route,
        routes = (front ++ [mkRoute "*" not_found false None []])%list
        /\ forallb (fun r => negb (is_catch_all r)) (flatten front) = true).
Proof.
  split; [apply nodupb_NoDup; reflexivity |].
  split; [reflexivity |].
  split; [reflexivity |].
  split; [apply nodupb_NoDup; reflexivity |].
  exists (removelast routes).
  split; reflexivity.
Qed.

End RouteFacts.

(* ================================================================== *)
(** * More on the configuration and the clock *)
(* ================================================================== *)

Section ClockFacts.

Import Date.
Local Open Scope Z_scope.

Lemma TimeFromYear_next (y : Z) : TimeFromYear y < TimeFromYear (y + 1).
Proof.
  unfold TimeFromYear, DayFromYear, msPerDay.
  Z.div_mod_to_equations. lia.
Qed.

Lemma YearFromTime_monotone (t1 t2 : Z) :
  t1 <= t2 -> YearFromTime t1 <= YearFromTime t2.
Proof.
  intros H. apply YearFromTime_largest.
  destruct (YearFromTime_bounds t1) as [Hlow _]. lia.
Qed.

(** A year is the year of every instant from its first to its last. *)
Lemma YearFromTime_within (y tv : Z) :
  TimeFromYear y <= tv < TimeFromYear (y + 1) -> YearFromTime tv = y.
Proof.
  intros [Hlow Hhigh].
  pose proof (YearFromTime_largest tv y Hlow) as Hge.
  destruct (YearFromTime_bounds tv) as [Hstarted _].
  destruct (Z_le_gt_dec (YearFromTime tv) y) as [Hle | Hgt]; [lia |].
  pose proof (TimeFromYear_monotone (y + 1) (YearFromTime tv) ltac:(lia)).
  lia.
Qed.

End ClockFacts.

(** The footer line of a configuration built at [now], for a given
    year. *)
Lemma copyright_line (now : Date.t) (y : Z) :
  Date.getFullYear now = y ->
  copyright_of (config now)
    = "Copyright © " ++ ToString y ++ " BrewKits. Built with Docusaurus."
  /\ copyright_of (config_part_002 now)
    = "Copyright © " ++ ToString y ++ " BrewKits. Built with Docusaurus.".
Proof.
  intros <-. split; reflexivity.
Qed.

(** The configuration depends on the clock through the local year and
    through nothing else: two loads of either revision give the same
    object exactly when their clocks read the same year. *)
Theorem config_equal_exactly_when_same_year (d1 d2 : Date.t) :
  (config d1 = config d2 <-> Date.getFullYear d1 = Date.getFullYear d2)
  /\ (config_part_002 d1 = config_part_002 d2
      <-> Date.getFullYear d1 = Date.getFullYear d2).
Proof.
  split; [apply config_eq_iff_same_year |].
  split.
  - intros H. apply config_eq_iff_same_year.
    destruct (config_is_static_part_with_year d1) as [S1 P1].
    destruct (config_is_static_part_with_year d2) as [S2 P2].
    rewrite S1, S2.
    apply (f_equal copyright_of) in H.
    destruct (copyright_of_config d1) as [_ E1].
    destruct (copyright_of_config d2) as [_ E2].
    rewrite E1, E2 in H. rewrite H.
    apply (config_static_part d1 d2).
  - intros H.
    destruct (config_is_static_part_with_year d1) as [_ P1].
    destruct (config_is_static_part_with_year d2) as [_ P2].
    rewrite P1, P2.
    destruct (copyright_of_config d1) as [E1 _].
    destruct (copyright_of_config d2) as [E2 _].
    rewrite E1, E2, H.
    apply (config_static_part d1 d2).
Qed.

(** The copyright year turns over exactly at local midnight on the first
    of January: loaded at the first millisecond of year [y] (local time,
    in any time zone) the footer shows [y]; loaded one millisecond
    earlier it shows [y - 1]. *)
Theorem copyright_year_turns_at_local_new_year (y tza : Z) :
  copyright_of (config (Date.mk (Date.TimeFromYear y - tza) tza))
    = "Copyright © " ++ ToString y ++ " BrewKits. Built with Docusaurus."
  /\ copyright_of (config (Date.mk (Date.TimeFromYear y - tza - 1) tza))
    = "Copyright © " ++ ToString (y - 1)
        ++ " BrewKits. Built with Docusaurus.".
Proof.
  split.
  - apply copyright_line. unfold Date.getFullYear, Date.LocalTime. simpl.
    apply YearFromTime_within.
    pose proof (TimeFromYear_next y). lia.
  - apply copyright_line. unfold Date.getFullYear, Date.LocalTime. simpl.
    apply YearFromTime_within.
    pose proof (TimeFromYear_next (y - 1)) as Hprev.
    replace (y - 1 + 1)%Z with y in * by lia. lia.
Qed.

(** The copyright year never runs backwards: of two loads, the one whose
    local clock is later shows a year at least as late. *)
Theorem copyright_year_never_decreases (d1 d2 : Date.t)
  (Hlater : (Date.LocalTime d1 <= Date.LocalTime d2)%Z) :
  exists y1 y2 : Z,
    copyright_of (config d1)
      = "Copyright © " ++ ToString y1 ++ " BrewKits. Built with Docusaurus."
    /\ copyright_of (config d2)
      = "Copyright © " ++ ToString y2 ++ " BrewKits. Built with Docusaurus."
    /\ (y1 <= y2)%Z.
Proof.
  exists (Date.getFullYear d1), (Date.getFullYear d2).
  split; [apply copyright_line; reflexivity |].
  split; [apply copyright_line; reflexivity |].
  unfold Date.getFullYear. apply YearFromTime_monotone. exact Hlater.
Qed.

(** A load in Honolulu (UTC-10) at 01:00 UTC on 1 January 2024, where it
    is still the afternoon of 31 December, and a load in Tokyo (UTC+9) ten
    hours earlier, at local midnight of the new year: the local clocks
    order them Honolulu first, and the years follow the local clocks. *)
Lemma copyright_year_never_decreases_witness :
  exists y1 y2 : Z,
    copyright_of (config (Date.mk (first_ms_of_2024 + 3600000) (-36000000)))
      = "Copyright © " ++ ToString y1 ++ " BrewKits. Built with Docusaurus."
    /\ copyright_of (config (Date.mk (first_ms_of_2024 - 32400000) 32400000))
      = "Copyright © " ++ ToString y2 ++ " BrewKits. Built with Docusaurus."
    /\ (y1 <= y2)%Z.
Proof.
  apply (copyright_year_never_decreases
           (Date.mk (first_ms_of_2024 + 3600000) (-36000000))
           (Date.mk (first_ms_of_2024 - 32400000) 32400000)).
  vm_compute. discriminate.
Defined.

(* ================================================================== *)
(** * More on markup and the components *)
(* ================================================================== *)

Lemma descendants_self (n : Node) : In n (descendants n).
Proof.
  destruct n; simpl; left; reflexivity.
Qed.

Lemma descendants_child (ty : ElementType) (ps : list (string * PropValue))
  (cs : list Node) (c x : Node) :
  In c cs -> In x (descendants c) -> In x (descendants (Element ty ps cs)).
Proof.
  intros Hc Hx. simpl. right.
  apply in_flat_map. exists c. split; assumption.
Qed.


Section ComponentComposition.

Variable Store : Type.
Variables features_css coffee_css index_css : CssModule.

(** [Feature], on any props: the column spans four grid units, gives the
    icon component [role="img"] and the module's [featureSvg] class, and
    its text is the title followed by the description and nothing else,
    an empty title included; the store is left as found. *)
Theorem Feature_renders_title_then_description
  (props : FeatureItem.t) (ctx : DocusaurusContext) (st : Store) :
  string_prop "className" (markup (Feature Store features_css props) ctx st)
    = Some "col col--4"
  /\ In (Element (FeatureItem.Svg props)
           [ ("className", PStr (features_css "featureSvg"));
             ("role", PStr "img") ] [])
        (descendants (markup (Feature Store features_css props) ctx st))
  /\ texts (markup (Feature Store features_css props) ctx st)
     = FeatureItem.title props :: texts (FeatureItem.description props)
  /\ textContent (markup (Feature Store features_css props) ctx st)
     = FeatureItem.title props ++ textContent (FeatureItem.description props)
  /\ store_after (Feature Store features_css props) ctx st = st.
Proof.
  unfold markup, store_after, Feature, ret. simpl.
  split; [reflexivity |].
  split; [right; right; left; reflexivity |].
  split; [rewrite !app_nil_r; reflexivity |].
  split; reflexivity.
Qed.

(** [Home] around any support widget: the widget is run once, on the
    store [Home] was given, and what it leaves is what [Home] leaves; the
    page's text is the header's, the feature row's, the two lines of the
    support section and the widget's, in that order; header, feature row
    and widget markup are all part of the page. *)
Theorem HomeWith_embeds_its_parts
  (widget : Render Store Node) (ctx : DocusaurusContext) (st : Store) :
  store_after (HomeWith Store features_css index_css widget) ctx st
    = store_after widget ctx st
  /\ texts (markup (HomeWith Store features_css index_css widget) ctx st)
     = (texts (markup (HomepageHeader Store index_css) ctx st)
        ++ texts (markup (HomepageFeatures Store features_css) ctx st)
        ++ [ "Support Our Work";
             "If you find our libraries useful, consider buying us a coffee to support continued development!" ]
        ++ texts (markup widget ctx st))%list
  /\ In (markup (HomepageHeader Store index_css) ctx st)
        (descendants
           (markup (HomeWith Store features_css index_css widget) ctx st))
  /\ In (markup (HomepageFeatures Store features_css) ctx st)
        (descendants
           (markup (HomeWith Store features_css index_css widget) ctx st))
  /\ In (markup widget ctx st)
        (descendants
           (markup (HomeWith Store features_css index_css widget) ctx st)).
Proof.
  unfold markup, store_after, HomeWith, HomepageHeader, HomepageFeatures,
    Feature, bind, useDocusaurusContext, ret.
  simpl. destruct (widget ctx st) as [n st'] eqn:Ew. simpl.
  split; [reflexivity |].
  split; [rewrite !app_nil_r; reflexivity |].
  split; [right; left; reflexivity |].
  split.
  - repeat (first [ left; reflexivity | right ]).
  - repeat (first [ left; reflexivity | right ]).
    repeat (apply in_or_app; left).
    apply descendants_self.
Qed.



(** The header's class: the two hero classes, followed by the module's
    [heroBanner] class when the module has one; when the module yields
    the empty string there is no trailing space. *)
Theorem header_class_keeps_hero_classes
  (ctx : DocusaurusContext) (st : Store) :
  string_prop "className" (markup (HomepageHeader Store index_css) ctx st)
  = Some (if String.eqb (index_css "heroBanner") ""
          then "hero hero--primary"
          else "hero hero--primary " ++ index_css "heroBanner").
Proof.
  assert (Hclsx : clsx ["hero hero--primary"; index_css "heroBanner"]
                  = if String.eqb (index_css "heroBanner") ""
                    then "hero hero--primary"
                    else "hero hero--primary " ++ index_css "heroBanner").
  { change (clsx ["hero hero--primary"; index_css "heroBanner"])
      with (if String.eqb (clsx [index_css "heroBanner"]) ""
            then "hero hero--primary"
            else "hero hero--primary" ++ " " ++ clsx [index_css "heroBanner"]).
    change (clsx [index_css "heroBanner"])
      with (if String.eqb (index_css "heroBanner") ""
            then "" else index_css "heroBanner").
    destruct (String.eqb (index_css "heroBanner") "") eqn:E.
    - reflexivity.
    - rewrite E. reflexivity. }
  unfold markup, HomepageHeader, bind, useDocusaurusContext, ret,
    string_prop, prop.
  cbn [fst lookup String.eqb Ascii.eqb Bool.eqb].
  rewrite Hclsx. reflexivity.
Qed.

End ComponentComposition.




(* ================================================================== *)
(** * Navigation against the route table *)
(* ================================================================== *)

Section NavigationFacts.

Import Routes.

(** A page of the table resolves to itself: [is_page] is the table's own
    notion of a destination that exists. *)
Lemma is_page_defined (table : list Route) (p : string) :
  is_page table p = true -> defined_path table p = true.
Proof.
  unfold is_page. intros H.
  apply existsb_exists in H as (r & Hin & Hr).
  apply andb_true_iff in Hr as [_ Hp].
  apply String.eqb_eq in Hp. subst p.
  apply path_of_entry_defined. exact Hin.
Qed.


(** The shape of the generated table: every entry's component was created
    for the entry's own path; all entries but the catch-all carry a hash,
    and the hashes are pairwise distinct, so no two entries share a
    component; every child's path extends its parent's; an entry is left
    unmarked as [exact] exactly when it has children or is the catch-all;
    and the entries filed under a sidebar are the documents below
    [/docs/]. *)
Theorem route_table_is_well_formed :
  Forall (fun r => component_path (component r) = path r) (flatten routes)
  /\ NoDup (hashes routes)
  /\ length (hashes routes) + 1 = length (flatten routes)
  /\ forallb nested_under_parent routes = true
  /\ forallb exact_iff_leaf (flatten routes) = true
  /\ Forall (fun r => sidebar r = Some "tutorialSidebar"
                      <-> String.prefix "/docs/" (path r) = true)
       (flatten routes).
Proof.
  split.
  - unfold routes, flatten. simpl. repeat constructor.
  - split; [apply nodupb_NoDup; reflexivity |].
    split; [reflexivity |].
    split; [reflexivity |].
    split; [reflexivity |].
    unfold routes, flatten. simpl.
    repeat (apply Forall_cons; [split; intros H; first [reflexivity | discriminate H] |]).
    apply Forall_nil.
Qed.

End NavigationFacts.

(** Both directions at work around the new year of 2024: two loads a day
    apart in January give the same object, and equal objects were built
    in the same year. *)
Lemma config_equal_exactly_when_same_year_witness :
  config (Date.mk first_ms_of_2024 0)
    = config (Date.mk (first_ms_of_2024 + 86400000) 0)
  /\ Date.getFullYear (Date.mk first_ms_of_2024 0)
     = Date.getFullYear (Date.mk (first_ms_of_2024 + 86400000) 0).
Proof.
  assert (H : config (Date.mk first_ms_of_2024 0)
              = config (Date.mk (first_ms_of_2024 + 86400000) 0)).
  { apply (proj1 (config_equal_exactly_when_same_year
                    (Date.mk first_ms_of_2024 0)
                    (Date.mk (first_ms_of_2024 + 86400000) 0))).
    reflexivity. }
  split; [exact H |].
  apply (proj1 (config_equal_exactly_when_same_year
                  (Date.mk first_ms_of_2024 0)
                  (Date.mk (first_ms_of_2024 + 86400000) 0))).
  exact H.
Defined.
